(** * auto_activity.py: a shallow embedding and its verified properties

    The script appends one time-stamped line to a file of a git repository
    and stages, commits and pushes it, on weekdays and with a configured
    probability.  Its only function with behaviour is [main]; the model
    below follows it statement by statement.

    - Text is [string] (a sequence of bytes; the file is opened with
      [encoding="utf-8"], so the em dash of the log line is its three
      UTF-8 bytes).
    - Python floats are their exact rational values ([Q]); [random.random()]
      is [k / 2^53] for a 53-bit [k], as CPython computes it.
    - Everything the script asks of its surroundings (the directory test, the
      clock, the random source, the outcome of the file write and of each
      [subprocess.run]) is answered by an [Env], over which the theorems
      quantify.
    - [main] is a program in a small state-and-exception monad: the state is
      the file system and the chronological trace of observable events;
      [SystemExit] and ordinary exceptions are separate results, because
      [except Exception] catches only the latter.

    Two things are taken for granted: [print] does not raise, and the git
    commands leave the files of the working tree alone (the file system of
    the model changes through the script's own write only). *)

From Stdlib Require Import ZArith QArith String Ascii List Lia.
From stdpp Require Import gmap strings list.

Local Open Scope string_scope.
Local Open Scope Z_scope.

(** ** Text helpers *)

Module Text.

(** The line feed written by ["\n"]. *)
Definition LF : ascii := ascii_of_nat 10.
Definition nl : string := String LF "".

(** U+2014 EM DASH in UTF-8 (E2 80 94). *)
Definition em_dash : string :=
  String (ascii_of_nat 226) (String (ascii_of_nat 128) (String (ascii_of_nat 148) "")).

(** The arguments joined by single spaces, as [print] writes them. *)
Fixpoint join_sp (args : list string) : string :=
  match args with
  | [] => ""
  | [a] => a
  | a :: rest => a +:+ " " +:+ join_sp rest
  end.

(** Python's [a or b] on strings: [a] unless it is empty. *)
Definition str_or (a b : string) : string :=
  match a with
  | EmptyString => b
  | _ => a
  end.

Definition startswith_sep (s : string) : bool :=
  match s with
  | String c _ => Ascii.eqb c "/"
  | EmptyString => false
  end.

Fixpoint endswith_sep (s : string) : bool :=
  match s with
  | EmptyString => false
  | String c EmptyString => Ascii.eqb c "/"
  | String _ rest => endswith_sep rest
  end.

(** [os.path.join(a, b)] of posixpath, for two components. *)
Definition path_join (a b : string) : string :=
  if startswith_sep b then b
  else if (String.eqb a "" || endswith_sep a)%bool then a +:+ b
  else a +:+ "/" +:+ b.

(** The first [n] bytes of a text. *)
Fixpoint take_bytes (n : nat) (s : string) : string :=
  match n, s with
  | S n', String c rest => String c (take_bytes n' rest)
  | _, _ => ""
  end.

(** Number of line feeds in a text. *)
Fixpoint count_lf (s : string) : nat :=
  match s with
  | EmptyString => O
  | String c rest => ((if Ascii.eqb c LF then 1 else 0) + count_lf rest)%nat
  end.

Definition digit_char (d : Z) : ascii := ascii_of_nat (48 + Z.to_nat d).

Fixpoint decimal_go (fuel : nat) (n : Z) (acc : string) : string :=
  match fuel with
  | O => acc
  | S fuel' =>
      let acc' := String (digit_char (n mod 10)) acc in
      if n / 10 =? 0 then acc' else decimal_go fuel' (n / 10) acc'
  end.

(** [str(n)] for a non-negative integer. *)
Definition decimal (n : Z) : string :=
  decimal_go (S (Z.to_nat (Z.log2 n))) n "".

Fixpoint zeros (k : nat) : string :=
  match k with
  | O => ""
  | S k' => String "0" (zeros k')
  end.

(** ["%0<w>d" % n] for a non-negative integer: padded, never truncated. *)
Definition zfill (w : nat) (n : Z) : string :=
  let s := decimal n in zeros (w - String.length s) +:+ s.

(** [format(x, ".3f")] for a non-negative float [x], given by its exact
    value: correctly rounded to three decimals, ties to even. *)
Definition format_3f (x : Q) : string :=
  let num := Qnum x * 1000 in
  let den := Z.pos (Qden x) in
  let q := num / den in
  let r := num mod den in
  let m := if (2 * r >? den) || ((2 * r =? den) && Z.odd q) then q + 1 else q in
  decimal (m / 1000) +:+ "." +:+ zfill 3 (m mod 1000).

(** Character classes of a fixed-width pattern. *)
Inductive cls := D | L (c : ascii).

Definition is_digit (c : ascii) : bool :=
  let n := nat_of_ascii c in ((48 <=? n)%nat && (n <=? 57)%nat)%bool.

(** Texts made of decimal digits only. *)
Fixpoint all_digits (s : string) : bool :=
  match s with
  | EmptyString => true
  | String c s' => is_digit c && all_digits s'
  end.

Definition cls_ok (k : cls) (c : ascii) : bool :=
  match k with
  | D => is_digit c
  | L c' => Ascii.eqb c c'
  end.

Fixpoint matches (p : list cls) (s : string) : bool :=
  match p, s with
  | [], EmptyString => true
  | k :: p', String c s' => cls_ok k c && matches p' s'
  | _, _ => false
  end.

End Text.

(** ** The part of [datetime] the script uses *)

Module Datetime.
Import Text.

Record datetime := mk_datetime {
  year : Z; month : Z; day : Z;
  hour : Z; minute : Z; second : Z; microsecond : Z
}.

Definition is_leap (y : Z) : bool :=
  (y mod 4 =? 0) && (negb (y mod 100 =? 0) || (y mod 400 =? 0)).

Definition days_before_year (y : Z) : Z :=
  let y' := y - 1 in y' * 365 + y' / 4 - y' / 100 + y' / 400.

Definition DAYS_BEFORE_MONTH : list Z :=
  [-1; 0; 31; 59; 90; 120; 151; 181; 212; 243; 273; 304; 334].

Definition days_in_month (y m : Z) : Z :=
  if (m =? 2) && is_leap y then 29
  else nth (Z.to_nat m) [-1; 31; 28; 31; 30; 31; 30; 31; 31; 30; 31; 30; 31] 0.

Definition days_before_month (y m : Z) : Z :=
  nth (Z.to_nat m) DAYS_BEFORE_MONTH 0 + (if (m >? 2) && is_leap y then 1 else 0).

Definition ymd2ord (y m d : Z) : Z :=
  days_before_year y + days_before_month y m + d.

(** [datetime.weekday()]: Monday is 0, Sunday is 6. *)
Definition weekday (t : datetime) : Z :=
  (ymd2ord (year t) (month t) (day t) + 6) mod 7.

(** [datetime.isoformat(timespec='seconds')] of a naive datetime. *)
Definition isoformat_seconds (t : datetime) : string :=
  zfill 4 (year t) +:+ "-" +:+ zfill 2 (month t) +:+ "-" +:+ zfill 2 (day t)
  +:+ "T" +:+ zfill 2 (hour t) +:+ ":" +:+ zfill 2 (minute t) +:+ ":"
  +:+ zfill 2 (second t).

(** The values a [datetime] object can hold (MINYEAR = 1, MAXYEAR = 9999). *)
Definition valid_datetime (t : datetime) : bool :=
  (1 <=? year t) && (year t <=? 9999) && (1 <=? month t) && (month t <=? 12)
  && (1 <=? day t) && (day t <=? days_in_month (year t) (month t))
  && (0 <=? hour t) && (hour t <? 24) && (0 <=? minute t) && (minute t <? 60)
  && (0 <=? second t) && (second t <? 60)
  && (0 <=? microsecond t) && (microsecond t <? 1000000).

(** [YYYY-MM-DDTHH:MM:SS]: ISO 8601 extended format, second precision. *)
Definition iso_seconds_pattern : list cls :=
  [D; D; D; D; L "-"; D; D; L "-"; D; D; L "T"; D; D; L ":"; D; D; L ":"; D; D].

Definition is_iso_seconds (s : string) : bool := matches iso_seconds_pattern s.

End Datetime.

Import Text Datetime.

(** ** The Python runtime: results, environment, state *)

Module Py.

(** An instance of [Exception], known by its [str()]. *)
Inductive exn := Exception (text : string).

Definition exn_str (e : exn) : string := let 'Exception t := e in t.

(** How a piece of code ends: normally, by [sys.exit(code)] ([SystemExit]
    is not an [Exception]), or by raising an [Exception]. *)
Inductive result (A : Type) :=
  | Ok (a : A)
  | SysExit (code : Z)
  | Raised (e : exn).
Arguments Ok {A} a.
Arguments SysExit {A} code.
Arguments Raised {A} e.

Inductive stream := Stdout | Stderr.

(** [subprocess.CompletedProcess] with captured text. *)
Record CompletedProcess := mk_completed {
  returncode : Z; stdout : string; stderr : string
}.

(** [subprocess.run(..., check=False)] returns, or raises (for instance
    when the executable is missing). *)
Inductive run_outcome :=
  | Returns (res : CompletedProcess)
  | Throws (e : exn).

(** What can go wrong in [with open(path, mode) as f: f.write(data)]:
    [open] raises and the file is untouched, or the file is opened and an
    error is raised when only the first [written] bytes have reached it. *)
Inductive io_fault :=
  | OpenFails (e : exn)
  | WriteFails (written : nat) (e : exn).

(** The answers of the surroundings.  [clock i] is the [i]-th reading of
    [datetime.now()], [entropy i] the [i]-th word of the random source;
    [float_repr] is Python's [repr] of a float. *)
Record Env := mk_env {
  isdir : string -> bool;
  clock : nat -> datetime;
  entropy : nat -> Z;
  file_fault : string -> string -> option io_fault;
  process_outcome : list string -> string -> run_outcome;
  float_repr : Q -> string
}.

(** Observable events, in the order they happen. *)
Inductive event :=
  | Print (to : stream) (text : string)
  | OpenFile (path mode : string)
  | Spawn (argv : list string) (cwd : string).

Record State := mk_state {
  files : gmap string string;
  trace : list event;
  ticks : nat;
  draws : nat
}.

Definition M (A : Type) : Type := State -> result A * State.

Definition ret {A} (a : A) : M A := fun st => (Ok a, st).

Definition bind {A B} (m : M A) (k : A -> M B) : M B :=
  fun st =>
    match m st with
    | (Ok a, st') => k a st'
    | (SysExit c, st') => (SysExit c, st')
    | (Raised e, st') => (Raised e, st')
    end.

#[global] Instance M_ret : MRet M := @ret.
#[global] Instance M_bind : MBind M := fun A B k m => bind m k.

Definition sys_exit {A} (code : Z) : M A := fun st => (SysExit code, st).
Definition raise {A} (e : exn) : M A := fun st => (Raised e, st).

(** [try: body / except Exception as e: handler e]. *)
Definition try_except {A} (body : M A) (handler : exn -> M A) : M A :=
  fun st =>
    match body st with
    | (Raised e, st') => handler e st'
    | other => other
    end.

Definition emit (ev : event) : M unit :=
  fun st => (Ok tt, mk_state (files st) (trace st ++ [ev]) (ticks st) (draws st)).

(** [print] of some arguments to a stream: joined by spaces, line feed
    added. *)
Definition print (to : stream) (args : list string) : M unit :=
  emit (Print to (join_sp args +:+ nl)).

(** [datetime.now()]. *)
Definition datetime_now (env : Env) : M datetime :=
  fun st => (Ok (clock env (ticks st)),
             mk_state (files st) (trace st) (S (ticks st)) (draws st)).

Definition next_word (env : Env) : M Z :=
  fun st => (Ok (entropy env (draws st)),
             mk_state (files st) (trace st) (ticks st) (S (draws st))).

(** [random.random()]: a multiple of 2^-53 in [0, 1). *)
Definition to_unit_interval (k : Z) : Q := Qmake (k mod 2 ^ 53) (2 ^ 53)%positive.

Definition random_random (env : Env) : M Q :=
  k ← next_word env; mret (to_unit_interval k).

(** [random.choice(seq)]: [IndexError] on an empty sequence. *)
Definition pick (k : Z) (seq : list string) (first : string) : string :=
  nth (Z.to_nat (k mod Z.of_nat (length seq))) seq first.

Definition random_choice (env : Env) (seq : list string) : M string :=
  match seq with
  | [] => raise (Exception "Cannot choose from an empty sequence")
  | first :: _ => k ← next_word env; mret (pick k seq first)
  end.

Definition set_file (path data : string) : M unit :=
  fun st => (Ok tt, mk_state (<[path := data]> (files st)) (trace st) (ticks st) (draws st)).

(** [with open(path, mode, encoding="utf-8") as f: f.write(data)] for the
    writing modes: ["a"] keeps what the file holds and creates it when
    absent, any other writing mode starts from an empty file. *)
Definition open_write (env : Env) (path mode data : string) : M unit :=
  fun st =>
    let old := if String.eqb mode "a" then default "" (files st !! path) else "" in
    match file_fault env path data with
    | Some (OpenFails e) => raise e st
    | Some (WriteFails n e) =>
        (emit (OpenFile path mode);; set_file path (old +:+ take_bytes n data);; raise e) st
    | None =>
        (emit (OpenFile path mode);; set_file path (old +:+ data)) st
    end.

(** [subprocess.run(argv, cwd=cwd, ...)]. *)
Definition subprocess_run (env : Env) (argv : list string) (cwd : string)
  : M CompletedProcess :=
  emit (Spawn argv cwd);;
  match process_outcome env argv cwd with
  | Returns res => mret res
  | Throws e => raise e
  end.

(** The exit status of the interpreter: 0 when the script runs to its end,
    the code of [sys.exit], 1 for an uncaught exception. *)
Definition exit_status {A} (r : result A) : Z :=
  match r with
  | Ok _ => 0
  | SysExit c => c
  | Raised _ => 1
  end.

End Py.

Import Py.

(** ** The script *)

(** The CONFIG block: module-level constants of the script. *)
Record Config := mk_config {
  REPO_DIR : string;
  FILENAME : string;
  PROBABILITY : Q;
  DRY_RUN : bool;
  NOTES : list string
}.

(** The constants as the source has them.  The float literal [0.7] is the
    double 6305039478318694 / 2^53. *)
Definition source_config : Config := {|
  REPO_DIR := "/path/to/your/repo";
  FILENAME := "activity_log.txt";
  PROBABILITY := Qmake 6305039478318694 9007199254740992;
  DRY_RUN := false;
  NOTES := [ "refactor notes"; "small doc tweak"; "daily log entry";
             "update dependencies list"; "tiny formatting fix";
             "add sample output"; "note about tests" ]
|}.

(** [run(cmd, cwd, capture)]: captured or not, the result carries the
    return code; the script always captures. *)
Definition run (env : Env) (cmd : list string) (cwd : string) (capture : bool)
  : M CompletedProcess :=
  subprocess_run env cmd cwd.

Definition log_line (ts note : string) : string :=
  ts +:+ " " +:+ em_dash +:+ " " +:+ note +:+ nl.

Definition commit_message (ts note : string) : string :=
  "Automated activity: " +:+ ts +:+ " " +:+ em_dash +:+ " " +:+ note.

(** The [try] block of [main]: status, add, commit, push. *)
Definition git_phase (cfg : Config) (env : Env) (ts note : string) : M unit :=
  res ← run env ["git"; "status"; "--porcelain"] (REPO_DIR cfg) true;
  if negb (returncode res =? 0) then
    print Stderr ["git status failed:"; str_or (stderr res) (stdout res)];;
    sys_exit 4
  else
  res ← run env ["git"; "add"; FILENAME cfg] (REPO_DIR cfg) true;
  if negb (returncode res =? 0) then
    print Stderr ["git add failed:"; str_or (stderr res) (stdout res)];;
    sys_exit 5
  else
  let commit_msg := commit_message ts note in
  if DRY_RUN cfg then
    print Stdout ["[DRY RUN] Would commit with message:"; commit_msg]
  else
  res ← run env ["git"; "commit"; "-m"; commit_msg] (REPO_DIR cfg) true;
  if negb (returncode res =? 0) then
    print Stdout ["git commit returned non-zero. Output:"];;
    print Stdout [str_or (stdout res) (stderr res)]
  else
  res ← run env ["git"; "push"] (REPO_DIR cfg) true;
  if negb (returncode res =? 0) then
    print Stderr ["git push failed:"; str_or (stderr res) (stdout res)];;
    sys_exit 6
  else
  print Stdout ["Success: committed and pushed:"; commit_msg].

Definition main (cfg : Config) (env : Env) : M unit :=
  if negb (isdir env (REPO_DIR cfg)) then
    print Stderr ["ERROR: REPO_DIR not found: " +:+ REPO_DIR cfg];;
    sys_exit 2
  else
  now ← datetime_now env;
  let weekday := weekday now in
  if weekday >=? 5 then
    print Stdout ["Not a weekday (Sat/Sun). Exiting."]
  else
  r ← random_random env;
  print Stdout ["Random roll: " +:+ format_3f r +:+ " (need < "
                +:+ float_repr env (PROBABILITY cfg) +:+ ")"];;
  if Qle_bool (PROBABILITY cfg) r then
    print Stdout ["Skipping commit this run (rolled above probability)."]
  else
  now ← datetime_now env;
  let ts := isoformat_seconds now in
  note ← random_choice env (NOTES cfg);
  let line := log_line ts note in
  let file_path := path_join (REPO_DIR cfg) (FILENAME cfg) in
  try_except (open_write env file_path "a" line)
    (fun e => print Stderr ["ERROR writing file:"; exn_str e];; sys_exit 3);;
  try_except (git_phase cfg env ts note)
    (fun e => print Stderr ["ERROR during git operations:"; exn_str e];; sys_exit 7).

(** One run of the script as a process, started on a file system. *)
Definition initial (fs : gmap string string) : State := mk_state fs [] 0 0.

Definition run_script (cfg : Config) (env : Env) (fs : gmap string string)
  : result unit * State :=
  main cfg env (initial fs).

Definition exit_code (cfg : Config) (env : Env) (fs : gmap string string) : Z :=
  exit_status (run_script cfg env fs).1.

Definition final (cfg : Config) (env : Env) (fs : gmap string string) : State :=
  (run_script cfg env fs).2.

(** ** What a run observes *)

(** The clock is read twice (gate, then time stamp) and the random source
    twice (roll, then note): these are the values a run gets. *)
Definition gate_weekday (env : Env) : Z := weekday (clock env 0).
Definition roll (env : Env) : Q := to_unit_interval (entropy env 0).
Definition stamp (env : Env) : string := isoformat_seconds (clock env 1).
Definition chosen_note (cfg : Config) (env : Env) : string :=
  match NOTES cfg with
  | [] => ""
  | first :: _ => pick (entropy env 1) (NOTES cfg) first
  end.

Definition target (cfg : Config) : string := path_join (REPO_DIR cfg) (FILENAME cfg).
Definition the_line (cfg : Config) (env : Env) : string :=
  log_line (stamp env) (chosen_note cfg env).
Definition the_message (cfg : Config) (env : Env) : string :=
  commit_message (stamp env) (chosen_note cfg env).

Definition status_cmd : list string := ["git"; "status"; "--porcelain"].
Definition add_cmd (cfg : Config) : list string := ["git"; "add"; FILENAME cfg].
Definition commit_cmd (msg : string) : list string := ["git"; "commit"; "-m"; msg].
Definition push_cmd : list string := ["git"; "push"].

(** The answer of git to a command of the run (always issued in REPO_DIR). *)
Definition git (cfg : Config) (env : Env) (argv : list string) : run_outcome :=
  process_outcome env argv (REPO_DIR cfg).

(** Projections of a trace. *)
Definition spawned (st : State) : list (list string) :=
  flat_map (fun ev => match ev with Spawn argv _ => [argv] | _ => [] end) (trace st).

Definition opened (st : State) : list (string * string) :=
  flat_map (fun ev => match ev with OpenFile p m => [(p, m)] | _ => [] end) (trace st).

Definition printed (to : stream) (st : State) : list string :=
  flat_map (fun ev =>
    match ev, to with
    | Print Stdout t, Stdout | Print Stderr t, Stderr => [t]
    | _, _ => []
    end) (trace st).

(** The git subcommand of an invocation. *)
Definition subcommand (argv : list string) : string :=
  match argv with
  | _ :: sub :: _ => sub
  | _ => ""
  end.

(** Of the subcommands the script uses, [status] only reads; [add],
    [commit] and [push] change the index, the history or the remote. *)
Definition changes_repository (argv : list string) : bool :=
  let sub := subcommand argv in
  String.eqb sub "add" || String.eqb sub "commit" || String.eqb sub "push".

(** Both gates are reached and passed. *)
Definition passes_gates (cfg : Config) (env : Env) : Prop :=
  isdir env (REPO_DIR cfg) = true
  /\ 0 <= gate_weekday env < 5
  /\ Qle_bool (PROBABILITY cfg) (roll env) = false.

Definition write_succeeds (cfg : Config) (env : Env) : Prop :=
  file_fault env (target cfg) (the_line cfg env) = None.

(** An invocation that returned, with its return code. *)
Definition returned (cfg : Config) (env : Env) (argv : list string) (rc : Z) : Prop :=
  exists res, git cfg env argv = Returns res /\ returncode res = rc.

(** The environment with the captured text of the status probe replaced
    (return code 0). *)
Definition with_status_output (env : Env) (out err : string) : Env :=
  mk_env (isdir env) (clock env) (entropy env) (file_fault env)
    (fun argv cwd =>
       if decide (argv = status_cmd) then Returns (mk_completed 0 out err)
       else process_outcome env argv cwd)
    (float_repr env).


(** ** Sample runs

    A Wednesday noon and a Saturday morning; a roll of 0.100 with the fifth
    note of the source's list, or a roll of 0.900.  The answers of git and
    of the file system vary. *)

Definition git_ok : CompletedProcess := mk_completed 0 "" "".

(** Every command succeeds, except that the subcommand [sub] returns [rc]. *)
Definition git_failing (sub : string) (rc : Z) (argv : list string) : run_outcome :=
  if String.eqb (subcommand argv) sub
  then Returns (mk_completed rc "" "fatal: it went wrong")
  else Returns git_ok.

(** Every command succeeds, except that the subcommand [sub] cannot be run. *)
Definition git_raising (sub : string) (argv : list string) : run_outcome :=
  if String.eqb (subcommand argv) sub
  then Throws (Exception "[Errno 2] No such file or directory: 'git'")
  else Returns git_ok.

Definition lucky (i : nat) : Z := 900719925474099 + Z.of_nat i.
Definition unlucky (i : nat) : Z := 8106479329266893 + Z.of_nat i.

Definition sample_env (dir : bool) (now : datetime) (words : nat -> Z)
    (fault : option io_fault) (answer : list string -> run_outcome) : Env :=
  mk_env (fun _ => dir) (fun _ => now) words
    (fun _ _ => fault) (fun argv _ => answer argv) (fun _ => "0.7").

Definition wednesday : datetime := mk_datetime 2026 11 4 12 32 7 0.
Definition saturday : datetime := mk_datetime 2026 11 7 9 0 0 0.

Definition happy_env : Env :=
  sample_env true wednesday lucky None (fun _ => Returns git_ok).
Definition no_repo_env : Env :=
  sample_env false wednesday lucky None (fun _ => Returns git_ok).
Definition weekend_env : Env :=
  sample_env true saturday lucky None (fun _ => Returns git_ok).
Definition weekend_no_repo_env : Env :=
  sample_env false saturday lucky None (fun _ => Returns git_ok).
Definition unlucky_env : Env :=
  sample_env true wednesday unlucky None (fun _ => Returns git_ok).
Definition nothing_to_commit_env : Env :=
  sample_env true wednesday lucky None (git_failing "commit" 1).
Definition push_rejected_env : Env :=
  sample_env true wednesday lucky None (git_failing "push" 1).

Definition dry_config : Config :=
  mk_config (REPO_DIR source_config) (FILENAME source_config)
    (PROBABILITY source_config) true (NOTES source_config).

Definition earlier : string :=
  "2026-11-03T09:00:00 " +:+ em_dash +:+ " refactor notes" +:+ nl.

Definition seeded : gmap string string := {[ target source_config := earlier ]}.

(** ** Further notions for the properties of whole runs *)

(** The exception a failed write raised. *)
Definition fault_exn (f : io_fault) : exn :=
  match f with
  | OpenFails e => e
  | WriteFails _ e => e
  end.

(** The configuration with the DRY_RUN constant set. *)
Definition with_dry_run (b : bool) (cfg : Config) : Config :=
  mk_config (REPO_DIR cfg) (FILENAME cfg) (PROBABILITY cfg) b (NOTES cfg).

(** The file system after the runs of a schedule, one environment per run,
    each run starting on the files the previous one left. *)
Fixpoint run_sequence (cfg : Config) (envs : list Env) (fs : gmap string string)
  : gmap string string :=
  match envs with
  | [] => fs
  | env :: rest => run_sequence cfg rest (files (final cfg env fs))
  end.

Fixpoint concat_all (l : list string) : string :=
  match l with
  | [] => ""
  | s :: rest => s +:+ concat_all rest
  end.

(** A run that acts: both gates passed, the write succeeds, the clock
    value of the time stamp is one a [datetime] can hold. *)
Definition acts (cfg : Config) (env : Env) : Prop :=
  passes_gates cfg env /\ write_succeeds cfg env
  /\ valid_datetime (clock env 1) = true.


(** Variants of the source's configuration. *)
Definition no_notes_config : Config :=
  mk_config (REPO_DIR source_config) (FILENAME source_config)
    (PROBABILITY source_config) false [].
Definition never_config : Config :=
  mk_config (REPO_DIR source_config) (FILENAME source_config) 0 false
    (NOTES source_config).
Definition always_config : Config :=
  mk_config (REPO_DIR source_config) (FILENAME source_config) 1 false
    (NOTES source_config).
Definition absolute_config : Config :=
  mk_config (REPO_DIR source_config) "/var/log/activity_log.txt"
    (PROBABILITY source_config) false (NOTES source_config).

Definition status_raises_env : Env :=
  sample_env true wednesday lucky None (git_raising "status").
Definition short_write_env : Env :=
  sample_env true wednesday lucky
    (Some (WriteFails 10 (Exception "[Errno 28] No space left on device")))
    (fun _ => Returns git_ok).

(** * Properties *)

(** ** Text and time *)

Example weekday_2026_11_04 :
  weekday (mk_datetime 2026 11 4 12 32 7 0) = 2
  /\ isoformat_seconds (mk_datetime 2026 11 4 12 32 7 250000) = "2026-11-04T12:32:07".
Proof. split; reflexivity. Qed.

Example weekday_epoch : weekday (mk_datetime 1 1 1 0 0 0 0) = 0.
Proof. reflexivity. Qed.

Example format_3f_examples :
  format_3f (1 # 16) = "0.062" /\ format_3f (1 # 10) = "0.100"
  /\ format_3f (9996 # 10000) = "1.000" /\ format_3f (3 # 16) = "0.188".
Proof. repeat split; vm_compute; reflexivity. Qed.

Example path_join_examples :
  path_join "/path/to/your/repo" "activity_log.txt" = "/path/to/your/repo/activity_log.txt"
  /\ path_join "repo/" "log" = "repo/log" /\ path_join "repo" "/abs" = "/abs"
  /\ path_join "" "log" = "log".
Proof. repeat split; reflexivity. Qed.

Lemma weekday_range t : 0 <= weekday t < 7.
Proof. unfold weekday. apply Z.mod_pos_bound. lia. Qed.

(** The weekdays the calendar gate stops are exactly Saturday and Sunday. *)
Lemma rest_day_iff t : (weekday t >=? 5) = true <-> weekday t = 5 \/ weekday t = 6.
Proof.
  rewrite Z.geb_leb, Z.leb_le. pose proof (weekday_range t). lia.
Qed.

Lemma to_unit_interval_range k :
  (0 <= to_unit_interval k)%Q /\ (to_unit_interval k < 1)%Q.
Proof.
  unfold to_unit_interval, Qle, Qlt. cbn [Qnum Qden].
  change (Z.pos (2 ^ 53)%positive) with (2 ^ 53).
  pose proof (Z.mod_pos_bound k (2 ^ 53) ltac:(lia)). lia.
Qed.

Lemma append_cons c s t : String c s +:+ t = String c (s +:+ t).
Proof. reflexivity. Qed.

Lemma append_empty s : s +:+ "" = s.
Proof.
  induction s as [|c s IH]; [reflexivity | rewrite append_cons; f_equal; exact IH].
Qed.

Lemma matches_app p1 p2 s1 s2 :
  matches p1 s1 = true -> matches p2 s2 = true ->
  matches (p1 ++ p2) (s1 +:+ s2) = true.
Proof.
  revert s1. induction p1 as [|k p1 IH]; intros [|c s1]; simpl; try discriminate.
  - auto.
  - intros H1 H2. apply andb_true_iff in H1 as [Hc H1].
    rewrite Hc. simpl. auto.
Qed.

Lemma digit_char_is_digit d : 0 <= d < 10 -> is_digit (digit_char d) = true.
Proof.
  intros Hd. assert (Hn : (Z.to_nat d < 10)%nat) by lia.
  unfold digit_char. destruct (Z.to_nat d) as [|[|[|[|[|[|[|[|[|[|k]]]]]]]]]];
    try reflexivity. lia.
Qed.

Lemma decimal_go_digits fuel n acc :
  all_digits acc = true -> all_digits (decimal_go fuel n acc) = true.
Proof.
  revert n acc. induction fuel as [|fuel IH]; intros n acc Hacc; cbn [decimal_go];
    [exact Hacc|].
  assert (Hacc' : all_digits (String (digit_char (n mod 10)) acc) = true).
  { cbn [all_digits]. rewrite Hacc, digit_char_is_digit; [reflexivity|].
    apply Z.mod_pos_bound. lia. }
  destruct (n / 10 =? 0); [exact Hacc' | apply IH; exact Hacc'].
Qed.

Lemma decimal_go_length fuel n acc (k : nat) :
  0 <= n < 10 ^ Z.of_nat (S k) ->
  (String.length (decimal_go fuel n acc) <= String.length acc + S k)%nat.
Proof.
  revert n acc k. induction fuel as [|fuel IH]; intros n acc k Hn; cbn [decimal_go];
    [lia|].
  destruct (n / 10 =? 0) eqn:E; [cbn [String.length]; lia|].
  apply Z.eqb_neq in E.
  destruct k as [|k].
  - exfalso. apply E. apply Z.div_small. change (10 ^ Z.of_nat 1) with 10 in Hn. lia.
  - specialize (IH (n / 10) (String (digit_char (n mod 10)) acc) k).
    cbn [String.length] in IH.
    assert (Hq : 0 <= n / 10 < 10 ^ Z.of_nat (S k)).
    { replace (Z.of_nat (S (S k))) with (Z.of_nat (S k) + 1) in Hn by lia.
      rewrite Z.pow_add_r in Hn by lia. change (10 ^ 1) with 10 in Hn.
      split; [apply Z.div_pos; lia|].
      apply Z.div_lt_upper_bound; lia. }
    specialize (IH Hq). lia.
Qed.

Lemma length_append a b : String.length (a +:+ b) = (String.length a + String.length b)%nat.
Proof.
  induction a as [|c a IH]; [reflexivity|].
  rewrite append_cons. cbn [String.length]. rewrite IH. reflexivity.
Qed.

Lemma all_digits_append a b :
  all_digits a = true -> all_digits b = true -> all_digits (a +:+ b) = true.
Proof.
  induction a as [|c a IH]; [auto|].
  rewrite append_cons. cbn [all_digits]. rewrite !andb_true_iff. intuition.
Qed.

Lemma zeros_spec k : String.length (zeros k) = k /\ all_digits (zeros k) = true.
Proof.
  induction k as [|k [IHl IHd]]; [split; reflexivity|].
  cbn [zeros String.length all_digits]. rewrite IHl, IHd. split; reflexivity.
Qed.

Lemma matches_digits (w : nat) s :
  String.length s = w -> all_digits s = true -> matches (repeat D w) s = true.
Proof.
  revert s. induction w as [|w IH]; intros [|c s]; simpl; try discriminate; auto.
  intros Hl Hd. apply andb_true_iff in Hd as [Hc Hd].
  rewrite Hc. simpl. apply IH; [congruence | exact Hd].
Qed.

(** A number below 10^w, padded to width [w], is exactly [w] digits. *)
Lemma zfill_digits (w : nat) n :
  0 <= n < 10 ^ Z.of_nat (S w) -> matches (repeat D (S w)) (zfill (S w) n) = true.
Proof.
  intros Hn. unfold zfill.
  pose proof (decimal_go_length (S (Z.to_nat (Z.log2 n))) n "" w Hn) as Hlen.
  pose proof (decimal_go_digits (S (Z.to_nat (Z.log2 n))) n "" eq_refl) as Hdig.
  fold (decimal n) in Hlen, Hdig. cbn [String.length] in Hlen.
  destruct (zeros_spec (S w - String.length (decimal n))) as [Hzl Hzd].
  apply matches_digits.
  - rewrite length_append, Hzl. lia.
  - apply all_digits_append; assumption.
Qed.

Lemma zfill2_digits n : 0 <= n < 100 -> matches [D; D] (zfill 2 n) = true.
Proof. intros Hn. apply (zfill_digits 1). change (10 ^ Z.of_nat 2) with 100. lia. Qed.

Lemma zfill4_digits n : 0 <= n < 10000 -> matches [D; D; D; D] (zfill 4 n) = true.
Proof. intros Hn. apply (zfill_digits 3). change (10 ^ Z.of_nat 4) with 10000. lia. Qed.

Lemma days_in_month_le y m : days_in_month y m <= 31.
Proof.
  unfold days_in_month. destruct ((m =? 2) && is_leap y); [lia|].
  destruct (Z.to_nat m) as [|[|[|[|[|[|[|[|[|[|[|[|[|k]]]]]]]]]]]]]; simpl; try lia.
  destruct k; lia.
Qed.

(** A [datetime] prints as [YYYY-MM-DDTHH:MM:SS]. *)
Lemma isoformat_is_iso t :
  valid_datetime t = true -> is_iso_seconds (isoformat_seconds t) = true.
Proof.
  unfold valid_datetime. rewrite !andb_true_iff.
  rewrite !Z.leb_le, !Z.ltb_lt. intros Hv.
  pose proof (days_in_month_le (year t) (month t)).
  unfold is_iso_seconds, isoformat_seconds.
  change iso_seconds_pattern with
    ([D; D; D; D] ++ [L "-"] ++ [D; D] ++ [L "-"] ++ [D; D] ++ [L "T"]
     ++ [D; D] ++ [L ":"] ++ [D; D] ++ [L ":"] ++ [D; D] ++ [])%list.
  rewrite <- (append_empty (zfill 2 (second t))).
  repeat first
    [ apply matches_app
    | apply zfill4_digits; lia
    | apply zfill2_digits; lia
    | reflexivity ].
Qed.

Lemma count_lf_app a b : count_lf (a +:+ b) = (count_lf a + count_lf b)%nat.
Proof.
  induction a as [|c a IH]; [reflexivity|].
  rewrite append_cons. cbn [count_lf]. rewrite IH. lia.
Qed.

Lemma matches_no_lf p s :
  matches p s = true -> Forall (fun k => k <> L LF) p -> count_lf s = O.
Proof.
  revert s. induction p as [|k p IH]; intros [|c s]; simpl; try discriminate; auto.
  intros Hm Hp. apply andb_true_iff in Hm as [Hc Hm].
  inversion Hp as [|? ? Hk Hp']; subst. rewrite (IH s Hm Hp').
  destruct (Ascii.eqb c LF) eqn:E; [|reflexivity].
  apply Ascii.eqb_eq in E. subst c. destruct k as [|c']; unfold cls_ok in Hc.
  - discriminate.
  - apply Ascii.eqb_eq in Hc. congruence.
Qed.

Lemma iso_no_lf ts : is_iso_seconds ts = true -> count_lf ts = O.
Proof.
  intros H. apply (matches_no_lf _ _ H).
  repeat constructor; discriminate.
Qed.

(** The text written for one record is one line when the note is. *)
Lemma log_line_one_line ts note :
  is_iso_seconds ts = true -> count_lf note = O -> count_lf (log_line ts note) = 1%nat.
Proof.
  intros Hts Hnote. unfold log_line. rewrite !count_lf_app, (iso_no_lf _ Hts), Hnote.
  reflexivity.
Qed.

Lemma source_notes_one_line : Forall (fun n => count_lf n = O) (NOTES source_config).
Proof. repeat constructor. Qed.

Lemma pick_in k seq first : In first seq -> In (pick k seq first) seq.
Proof.
  intros Hin. unfold pick.
  destruct (Nat.lt_ge_cases (Z.to_nat (k mod Z.of_nat (length seq))) (length seq)) as [Hlt|Hge].
  - apply nth_In. exact Hlt.
  - rewrite nth_overflow by exact Hge. exact Hin.
Qed.

Lemma chosen_note_in cfg env : NOTES cfg <> [] -> In (chosen_note cfg env) (NOTES cfg).
Proof.
  unfold chosen_note. destruct (NOTES cfg) as [|first rest] eqn:E; [congruence|].
  intros _. apply pick_in. left. reflexivity.
Qed.

(** ** The run *)

#[local] Arguments weekday : simpl never.
#[local] Arguments isoformat_seconds : simpl never.
#[local] Arguments format_3f : simpl never.
#[local] Arguments to_unit_interval : simpl never.
#[local] Arguments pick : simpl never.
#[local] Arguments path_join : simpl never.
#[local] Arguments log_line : simpl never.
#[local] Arguments commit_message : simpl never.
#[local] Arguments Qle_bool : simpl never.
#[local] Arguments Z.eqb : simpl never.
#[local] Arguments Z.geb : simpl never.
#[local] Arguments join_sp : simpl never.
#[local] Arguments take_bytes : simpl never.

Ltac unfold_run :=
  unfold exit_code, final, run_script, main, git_phase, run, subprocess_run,
    random_random, random_choice, open_write, try_except, print, emit,
    datetime_now, next_word, set_file, sys_exit, raise, initial,
    mbind, M_bind, bind, mret, M_ret, ret in *.

Ltac unfold_obs :=
  unfold passes_gates, write_succeeds, returned, the_line, the_message, git,
    gate_weekday, roll, stamp, chosen_note, target, spawned, opened, printed in *.

(** One case split of the run on an answer of the environment or on a
    constant of the configuration. *)
Ltac split_run :=
  match goal with
  | |- context [if ?c then _ else _] =>
      lazymatch c with
      | context [if _ then _ else _] => fail
      | context [match _ with _ => _ end] => fail
      | negb ?c' => destruct c' eqn:?
      | _ => destruct c eqn:?
      end
  | |- context [match ?x with _ => _ end] =>
      lazymatch x with
      | context [if _ then _ else _] => fail
      | context [match _ with _ => _ end] => fail
      | _ => destruct x eqn:?
      end
  end.

Ltac cmp_facts :=
  repeat match goal with
  | H : (_ >=? _) = true |- _ => rewrite Z.geb_leb, Z.leb_le in H
  | H : (_ >=? _) = false |- _ => rewrite Z.geb_leb, Z.leb_gt in H
  | H : (_ =? _) = true |- _ => apply Z.eqb_eq in H
  | H : (_ =? _) = false |- _ => apply Z.eqb_neq in H
  end.

Ltac unfold_cmds := unfold status_cmd, add_cmd, push_cmd, commit_cmd in *.

(** Symbolic execution: one goal for every path of [main], with the final
    result and state of that path in place of the run. *)
Ltac run_paths :=
  unfold exit_code, final in *;
  let r := fresh "r" in
  let st := fresh "st" in
  let Hrun := fresh "Hrun" in
  destruct (run_script _ _ _) as [r st] eqn:Hrun;
  revert Hrun; unfold_cmds; unfold_obs; unfold_run; simpl;
  repeat (split_run; simpl);
  intros Hrun; injection Hrun as <- <-; simpl in *.

Ltac in_cases H :=
  repeat match type of H with
  | _ \/ _ => destruct H as [H|H]; [try discriminate H | ]
  | False => contradiction
  end.

Ltac open_hyps :=
  repeat match goal with
  | H : exists _, _ |- _ => destruct H
  | H : _ /\ _ |- _ => destruct H
  end.

Ltac finish := cmp_facts; try discriminate; try congruence; try lia.

Ltac impossible := exfalso; open_hyps; finish; fail.


Ltac split_all := repeat match goal with |- _ /\ _ => split | |- _ <-> _ => split end.




(** C5. When REPO_DIR is not an existing directory the run prints one
    diagnostic line on standard error and exits with status 2 (not zero);
    nothing else happens: no file is opened or changed, no command is run,
    the clock and the random source are not consulted, nothing is retried. *)
Theorem invalid_repository_exits_2 cfg env fs :
  isdir env (REPO_DIR cfg) = false ->
  run_script cfg env fs
  = (SysExit 2,
     mk_state fs [Print Stderr ("ERROR: REPO_DIR not found: " +:+ REPO_DIR cfg +:+ nl)] 0 0)
  /\ exit_code cfg env fs = 2 /\ exit_code cfg env fs <> 0
  /\ files (final cfg env fs) = fs
  /\ opened (final cfg env fs) = []
  /\ spawned (final cfg env fs) = [].
Proof.
  intros Hdir. unfold_obs. unfold_run. rewrite Hdir. simpl.
  repeat split; discriminate.
Qed.

(** C3, as the code has it.  When REPO_DIR is a directory and the current
    local weekday is Saturday (5) or Sunday (6), the run ends normally with
    exit status 0 right at the calendar gate: it prints its notice, the file
    system is unchanged, no file is opened, no command is run and no random
    number is drawn. *)
Theorem rest_day_exits_quietly cfg env fs :
  isdir env (REPO_DIR cfg) = true ->
  gate_weekday env = 5 \/ gate_weekday env = 6 ->
  run_script cfg env fs
  = (Ok tt, mk_state fs [Print Stdout ("Not a weekday (Sat/Sun). Exiting." +:+ nl)] 1 0)
  /\ exit_code cfg env fs = 0
  /\ files (final cfg env fs) = fs
  /\ opened (final cfg env fs) = []
  /\ spawned (final cfg env fs) = [].
Proof.
  intros Hdir Hrest. apply rest_day_iff in Hrest.
  unfold_obs. unfold_run. rewrite Hdir. simpl. rewrite Hrest. simpl.
  repeat split.
Qed.

(** C3, as stated, fails when REPO_DIR is not a directory: the directory
    test comes before the calendar gate, so a run on a Saturday exits with
    status 2, not 0 (it still changes no file and runs no command). *)
Lemma rest_day_counterexample :
  gate_weekday weekend_no_repo_env = 5
  /\ (run_script source_config weekend_no_repo_env seeded).1 = SysExit 2
  /\ exit_code source_config weekend_no_repo_env seeded = 2
  /\ exit_code source_config weekend_no_repo_env seeded <> 0.
Proof. repeat split. vm_compute. discriminate. Qed.

(** A run draws its random sample exactly when REPO_DIR is a directory
    and the day is not a rest day. *)
Lemma sample_drawn_iff cfg env fs :
  (0 < draws (final cfg env fs))%nat
  <-> isdir env (REPO_DIR cfg) = true /\ gate_weekday env < 5.
Proof.
  run_paths; cmp_facts; split; intros; open_hyps; try lia; try congruence;
    split; congruence || lia.
Qed.

(** C4. On a non-rest day, when the run draws its random sample, a number
    in [0, 1), and the sample is greater than or equal to PROBABILITY, the
    run ends normally with exit status 0 and changes nothing: the file
    system is unchanged, no file is opened, no command is run, and the
    sample is the only one drawn. *)
Theorem probability_miss_exits_quietly cfg env fs :
  gate_weekday env < 5 ->
  (0 < draws (final cfg env fs))%nat ->
  Qle_bool (PROBABILITY cfg) (roll env) = true ->
  (run_script cfg env fs).1 = Ok tt
  /\ exit_code cfg env fs = 0
  /\ files (final cfg env fs) = fs
  /\ opened (final cfg env fs) = []
  /\ spawned (final cfg env fs) = []
  /\ draws (final cfg env fs) = 1%nat
  /\ (0 <= roll env)%Q /\ (roll env < 1)%Q /\ (PROBABILITY cfg <= roll env)%Q.
Proof.
  intros Hwd Hdrawn Hroll.
  pose proof (to_unit_interval_range (entropy env 0)) as [Hlo Hhi].
  pose proof (proj1 (Qle_bool_iff _ _) Hroll) as Hge.
  run_paths.
  all: try (exfalso; finish; fail).
  all: repeat split; assumption.
Qed.

(** C6. Outside dry-run mode, when the run invokes [git commit] and the
    command returns a non-zero code, the run is not an error: it ends
    normally with exit status 0, prints nothing on standard error, and
    [git push] is never invoked ([git commit] is the last command run). *)
Theorem commit_nonzero_is_not_an_error cfg env fs msg res :
  DRY_RUN cfg = false ->
  In (commit_cmd msg) (spawned (final cfg env fs)) ->
  git cfg env (commit_cmd msg) = Returns res ->
  returncode res <> 0 ->
  (run_script cfg env fs).1 = Ok tt
  /\ exit_code cfg env fs = 0
  /\ (forall argv, In argv (spawned (final cfg env fs)) -> subcommand argv <> "push")
  /\ last (spawned (final cfg env fs)) = Some (commit_cmd msg)
  /\ printed Stderr (final cfg env fs) = [].
Proof.
  intros Hdry Hin Hgit Hrc. run_paths.
  all: try (exfalso; in_cases Hin; fail).
  all: in_cases Hin; injection Hin as <-.
  all: try impossible.
  all: repeat split; try reflexivity.
  all: intros argv Hargv; in_cases Hargv; subst argv; simpl; discriminate.
Qed.


(** C9. On every path the log file is only appended to.  The only file the
    run opens is the target, in mode ["a"]; what the target held before the
    run is a prefix of what it holds afterwards; every other file is
    unchanged; and once the write has succeeded the file ends with the
    written line whatever the later git commands answer (non-zero codes and
    exceptions included): nothing removes the line again. *)
Theorem log_file_is_append_only cfg env fs :
  (forall p m, In (p, m) (opened (final cfg env fs)) -> p = target cfg /\ m = "a")
  /\ (forall old, fs !! target cfg = Some old ->
        exists added, files (final cfg env fs) !! target cfg = Some (old +:+ added))
  /\ (forall p, p <> target cfg -> files (final cfg env fs) !! p = fs !! p)
  /\ (passes_gates cfg env -> NOTES cfg <> [] -> write_succeeds cfg env ->
        files (final cfg env fs) !! target cfg
        = Some (default "" (fs !! target cfg) +:+ the_line cfg env)).
Proof.
  run_paths.
  all: split_all.
  all: try (intros; impossible).
  all: try (intros p m Hin; in_cases Hin; injection Hin as <- <-; split; reflexivity).
  all: try (intros p Hp; first [reflexivity | apply lookup_insert_ne; congruence]).
  all: try (intros old Hold; first
         [ exists ""; rewrite append_empty; exact Hold
         | eexists; rewrite lookup_insert_eq, Hold; reflexivity ]).
  all: intros; apply lookup_insert_eq.
Qed.

(** C10. The text captured from [git status --porcelain] is never looked
    at: two runs that differ only in the standard output and standard error
    of the probe (return code 0 in both) have the same result, the same
    final file system and the same trace.  In particular, when the probe
    prints nothing (a clean working tree), a run that passed the gates and
    wrote its line still runs [git add] and, outside dry-run mode and after
    a successful [git add], [git commit]. *)
Theorem status_output_is_ignored cfg env fs out1 err1 out2 err2 :
  run_script cfg (with_status_output env out1 err1) fs
  = run_script cfg (with_status_output env out2 err2) fs
  /\ (passes_gates cfg env -> NOTES cfg <> [] -> write_succeeds cfg env ->
      In (add_cmd cfg) (spawned (final cfg (with_status_output env "" "") fs))
      /\ (DRY_RUN cfg = false -> returned cfg env (add_cmd cfg) 0 ->
          In (commit_cmd (the_message cfg env))
             (spawned (final cfg (with_status_output env "" "") fs)))).
Proof.
  split.
  - unfold with_status_output. unfold_cmds. unfold_run. simpl.
    repeat (split_run; simpl).
    all: try reflexivity.
    all: exfalso; finish.
  - intros Hg Hn Hw. unfold with_status_output. run_paths.
    all: try impossible.
    all: split; [tauto|]; intros Hdry Hret; destruct Hret as (? & ? & ?).
    all: try (exfalso; finish; fail).
    all: tauto.
Qed.



(** C7, as the code has it.  In dry-run mode the only commands a run
    invokes are [git status --porcelain] and [git add FILENAME]: [git
    commit] and [git push] are never invoked.  The file is still written,
    the probe is still run, and after a successful probe the target file is
    still staged. *)
Theorem dry_run_suppresses_commit_and_push cfg env fs :
  DRY_RUN cfg = true ->
  (forall argv, In argv (spawned (final cfg env fs)) ->
     argv = status_cmd \/ argv = add_cmd cfg)
  /\ (forall argv, In argv (spawned (final cfg env fs)) ->
        subcommand argv <> "commit" /\ subcommand argv <> "push")
  /\ (passes_gates cfg env -> NOTES cfg <> [] -> write_succeeds cfg env ->
        files (final cfg env fs)
        = <[target cfg := default "" (fs !! target cfg) +:+ the_line cfg env]> fs
        /\ In status_cmd (spawned (final cfg env fs))
        /\ (returned cfg env status_cmd 0 -> In (add_cmd cfg) (spawned (final cfg env fs)))).
Proof.
  intros Hdry. run_paths.
  all: try discriminate Hdry.
  all: split_all.
  all: try (intros argv Hargv; in_cases Hargv; subst argv;
            first [tauto | split; discriminate]).
  all: try (intros; impossible).
  all: intros; repeat split; first [reflexivity | tauto | intros; impossible].
Qed.

(** C7, as stated, fails: a dry run on a Wednesday with a roll of 0.100
    runs [git add activity_log.txt], which changes the index of the
    repository. *)
Lemma dry_run_counterexample :
  DRY_RUN dry_config = true
  /\ spawned (final dry_config happy_env ∅) = [status_cmd; add_cmd dry_config]
  /\ changes_repository (add_cmd dry_config) = true
  /\ ~ (forall argv, In argv (spawned (final dry_config happy_env ∅)) ->
          changes_repository argv = false).
Proof.
  assert (Hsp : spawned (final dry_config happy_env ∅) = [status_cmd; add_cmd dry_config]).
  { vm_compute. reflexivity. }
  repeat split; try exact Hsp; try reflexivity.
  intros H. specialize (H (add_cmd dry_config)). rewrite Hsp in H.
  discriminate H. right. left. reflexivity.
Qed.



(** ** The theorems at sample runs *)

Lemma invalid_repository_exits_2_witness :
  isdir no_repo_env (REPO_DIR source_config) = false
  /\ exit_code source_config no_repo_env seeded = 2
  /\ files (final source_config no_repo_env seeded) = seeded.
Proof.
  assert (H : isdir no_repo_env (REPO_DIR source_config) = false) by reflexivity.
  split; [exact H|].
  destruct (invalid_repository_exits_2 source_config no_repo_env seeded H)
    as (_ & Hc & _ & Hf & _).
  split; assumption.
Defined.

Lemma rest_day_exits_quietly_witness :
  isdir weekend_env (REPO_DIR source_config) = true
  /\ gate_weekday weekend_env = 5
  /\ exit_code source_config weekend_env seeded = 0
  /\ files (final source_config weekend_env seeded) = seeded
  /\ spawned (final source_config weekend_env seeded) = [].
Proof.
  assert (Hd : isdir weekend_env (REPO_DIR source_config) = true) by reflexivity.
  assert (Hw : gate_weekday weekend_env = 5) by reflexivity.
  split; [exact Hd|]. split; [exact Hw|].
  destruct (rest_day_exits_quietly source_config weekend_env seeded Hd (or_introl Hw))
    as (_ & Hc & Hf & _ & Hs).
  repeat split; assumption.
Defined.

Lemma probability_miss_exits_quietly_witness :
  gate_weekday unlucky_env = 2
  /\ draws (final source_config unlucky_env seeded) = 1%nat
  /\ Qle_bool (PROBABILITY source_config) (roll unlucky_env) = true
  /\ exit_code source_config unlucky_env seeded = 0
  /\ files (final source_config unlucky_env seeded) = seeded
  /\ spawned (final source_config unlucky_env seeded) = [].
Proof.
  assert (Hw : gate_weekday unlucky_env = 2) by reflexivity.
  assert (Hd : draws (final source_config unlucky_env seeded) = 1%nat)
    by (vm_compute; reflexivity).
  assert (Hr : Qle_bool (PROBABILITY source_config) (roll unlucky_env) = true)
    by (vm_compute; reflexivity).
  split; [exact Hw|]. split; [exact Hd|]. split; [exact Hr|].
  assert (Hlt : gate_weekday unlucky_env < 5) by (rewrite Hw; lia).
  assert (Hpos : (0 < draws (final source_config unlucky_env seeded))%nat)
    by (rewrite Hd; lia).
  destruct (probability_miss_exits_quietly source_config unlucky_env seeded Hlt Hpos Hr)
    as (_ & Hc & Hf & _ & Hs & _).
  repeat split; assumption.
Defined.

Lemma commit_nonzero_is_not_an_error_witness :
  DRY_RUN source_config = false
  /\ In (commit_cmd (the_message source_config nothing_to_commit_env))
        (spawned (final source_config nothing_to_commit_env ∅))
  /\ exit_code source_config nothing_to_commit_env ∅ = 0
  /\ last (spawned (final source_config nothing_to_commit_env ∅))
     = Some (commit_cmd (the_message source_config nothing_to_commit_env)).
Proof.
  assert (Hin : In (commit_cmd (the_message source_config nothing_to_commit_env))
                   (spawned (final source_config nothing_to_commit_env ∅))).
  { vm_compute. do 2 right. left. reflexivity. }
  assert (Hrc : returncode (mk_completed 1 "" "fatal: it went wrong") <> 0)
    by (simpl; lia).
  split; [reflexivity|]. split; [exact Hin|].
  destruct (commit_nonzero_is_not_an_error source_config nothing_to_commit_env ∅
              (the_message source_config nothing_to_commit_env)
              (mk_completed 1 "" "fatal: it went wrong")
              eq_refl Hin eq_refl Hrc) as (_ & Hc & _ & Hl & _).
  split; assumption.
Defined.


Lemma log_file_is_append_only_witness :
  exists added,
    files (final source_config push_rejected_env seeded) !! target source_config
    = Some (earlier +:+ added).
Proof.
  destruct (log_file_is_append_only source_config push_rejected_env seeded)
    as (_ & Hprefix & _).
  apply Hprefix. apply lookup_singleton_eq.
Defined.

Lemma status_output_is_ignored_witness :
  run_script source_config (with_status_output happy_env "" "") ∅
  = run_script source_config
      (with_status_output happy_env (" M activity_log.txt" +:+ nl) "warning") ∅.
Proof.
  exact (proj1 (status_output_is_ignored source_config happy_env ∅
                  "" "" (" M activity_log.txt" +:+ nl) "warning")).
Defined.


Lemma dry_run_suppresses_commit_and_push_witness :
  DRY_RUN dry_config = true
  /\ forall argv, In argv (spawned (final dry_config happy_env ∅)) ->
       subcommand argv <> "commit" /\ subcommand argv <> "push".
Proof.
  split; [reflexivity|].
  exact (proj1 (proj2 (dry_run_suppresses_commit_and_push dry_config happy_env ∅ eq_refl))).
Defined.


(** * Further properties of the script *)

Lemma append_assoc a b c : (a +:+ b) +:+ c = a +:+ (b +:+ c).
Proof.
  induction a as [|x a IH]; [reflexivity|].
  rewrite !append_cons. f_equal. exact IH.
Qed.

(** X1. The commands a run invokes are an initial part of the sequence
    status, add, commit, push, in that order and each at most once, and
    every one of them is started in REPO_DIR. *)
Theorem commands_in_order cfg env fs :
  (exists rest,
     [status_cmd; add_cmd cfg; commit_cmd (the_message cfg env); push_cmd]
     = (spawned (final cfg env fs) ++ rest)%list)
  /\ (forall argv cwd, In (Spawn argv cwd) (trace (final cfg env fs)) ->
        cwd = REPO_DIR cfg).
Proof.
  run_paths.
  all: split; [eexists; reflexivity|].
  all: intros argv cwd Hin; in_cases Hin; congruence.
Qed.

(** X2. No git command is run before the line is in the file: a run that
    invokes any command has opened the target once, in mode ["a"], has
    written its whole line, and did so before its first command. *)
Theorem git_only_after_write cfg env fs :
  spawned (final cfg env fs) <> [] ->
  opened (final cfg env fs) = [(target cfg, "a")]
  /\ files (final cfg env fs)
     = <[target cfg := default "" (fs !! target cfg) +:+ the_line cfg env]> fs
  /\ exists before after,
       trace (final cfg env fs)
       = (before ++ OpenFile (target cfg) "a" :: after)%list
       /\ forall argv cwd, ~ In (Spawn argv cwd) before.
Proof.
  intros Hsp. run_paths.
  all: try congruence.
  all: split; [reflexivity|]; split; [reflexivity|].
  all: eexists [_]; eexists; split; [reflexivity|].
  all: intros argv cwd Hin; simpl in Hin; in_cases Hin.
Qed.

Lemma git_only_after_write_witness :
  spawned (final source_config push_rejected_env seeded) <> []
  /\ opened (final source_config push_rejected_env seeded)
     = [(target source_config, "a")].
Proof.
  assert (H : spawned (final source_config push_rejected_env seeded) <> [])
    by (vm_compute; discriminate).
  split; [exact H|].
  exact (proj1 (git_only_after_write source_config push_rejected_env seeded H)).
Defined.

(** X3. With an empty list of notes, a run that passes both gates ends in
    the exception that [random.choice] raises, outside any [try]: exit
    status 1, no file opened or changed, no command run. *)
Theorem empty_notes_raise cfg env fs :
  NOTES cfg = [] ->
  isdir env (REPO_DIR cfg) = true ->
  gate_weekday env < 5 ->
  Qle_bool (PROBABILITY cfg) (roll env) = false ->
  (exists e, (run_script cfg env fs).1 = Raised e)
  /\ exit_code cfg env fs = 1
  /\ files (final cfg env fs) = fs
  /\ opened (final cfg env fs) = []
  /\ spawned (final cfg env fs) = [].
Proof.
  intros Hn Hd Hw Hr. run_paths.
  all: try (exfalso; finish; fail).
  all: split; [eexists; reflexivity | repeat split].
Qed.

Lemma empty_notes_raise_witness :
  NOTES no_notes_config = []
  /\ exit_code no_notes_config happy_env seeded = 1
  /\ files (final no_notes_config happy_env seeded) = seeded.
Proof.
  assert (Hw : gate_weekday happy_env < 5)
    by (replace (gate_weekday happy_env) with 2 by reflexivity; lia).
  split; [reflexivity|].
  destruct (empty_notes_raise no_notes_config happy_env seeded
              eq_refl eq_refl Hw eq_refl) as (_ & Hc & Hf & _).
  split; assumption.
Defined.

(** X4. With a non-empty list of notes, standard error tells failure from
    success: the exit status is 0 exactly when nothing was printed on
    standard error, and a run with a non-zero status made exactly one
    [print] to standard error. *)
Theorem stderr_tells_failure cfg env fs :
  NOTES cfg <> [] ->
  (exit_code cfg env fs = 0 <-> printed Stderr (final cfg env fs) = [])
  /\ (exit_code cfg env fs <> 0 ->
        exists line, printed Stderr (final cfg env fs) = [line]).
Proof.
  intros Hn. run_paths.
  all: try congruence.
  all: split; [split; intros; first [reflexivity | discriminate | lia] |].
  all: intros; first [lia | eexists; reflexivity].
Qed.

Lemma stderr_tells_failure_witness :
  NOTES source_config <> []
  /\ printed Stderr (final source_config happy_env seeded) = []
  /\ exists line, printed Stderr (final source_config push_rejected_env seeded) = [line].
Proof.
  assert (Hn : NOTES source_config <> []) by discriminate.
  split; [exact Hn|]. split.
  - apply (proj1 (stderr_tells_failure source_config happy_env seeded Hn)).
    vm_compute. reflexivity.
  - apply (proj2 (stderr_tells_failure source_config push_rejected_env seeded Hn)).
    vm_compute. discriminate.
Defined.

(** X5. When [git status], [git add] or [git push] ends the run with its
    non-zero return code (exit status 4, 5, 6), the one line on standard
    error is the label of the stage followed by the captured standard error
    of the command, or by its captured standard output when the standard
    error is empty. *)
Theorem return_code_diagnostics cfg env fs res :
  (exit_code cfg env fs = 4 -> git cfg env status_cmd = Returns res ->
     printed Stderr (final cfg env fs)
     = ["git status failed: " +:+ str_or (stderr res) (stdout res) +:+ nl])
  /\ (exit_code cfg env fs = 5 -> git cfg env (add_cmd cfg) = Returns res ->
        printed Stderr (final cfg env fs)
        = ["git add failed: " +:+ str_or (stderr res) (stdout res) +:+ nl])
  /\ (exit_code cfg env fs = 6 -> git cfg env push_cmd = Returns res ->
        printed Stderr (final cfg env fs)
        = ["git push failed: " +:+ str_or (stderr res) (stdout res) +:+ nl])
  /\ (stderr res <> "" -> str_or (stderr res) (stdout res) = stderr res)
  /\ (stderr res = "" -> str_or (stderr res) (stdout res) = stdout res).
Proof.
  run_paths.
  all: split_all.
  all: try (intros; exfalso; finish; fail).
  all: try (intros Hne; destruct (stderr res); [congruence | reflexivity]).
  all: try (intros ->; reflexivity).
  all: intros _ Heq; injection Heq as <-; reflexivity.
Qed.

(** X6. When [git commit] returns a non-zero code, the run reports it on
    standard output, not on standard error: after the roll, the line [git
    commit returned non-zero. Output:] and then the captured standard
    output of the command, or its captured standard error when the standard
    output is empty (the other commands prefer the standard error). *)
Theorem commit_nonzero_report cfg env fs msg res :
  In (commit_cmd msg) (spawned (final cfg env fs)) ->
  git cfg env (commit_cmd msg) = Returns res ->
  returncode res <> 0 ->
  printed Stdout (final cfg env fs)
  = ["Random roll: " +:+ format_3f (roll env) +:+ " (need < "
       +:+ float_repr env (PROBABILITY cfg) +:+ ")" +:+ nl;
     "git commit returned non-zero. Output:" +:+ nl;
     str_or (stdout res) (stderr res) +:+ nl]
  /\ (stdout res <> "" -> str_or (stdout res) (stderr res) = stdout res)
  /\ (stdout res = "" -> str_or (stdout res) (stderr res) = stderr res).
Proof.
  intros Hin Hgit Hrc. run_paths.
  all: try (exfalso; in_cases Hin; fail).
  all: in_cases Hin; injection Hin as <-.
  all: try impossible.
  all: rewrite Hgit in *.
  all: match goal with H : Returns _ = Returns _ |- _ => injection H as <- end.
  all: split_all.
  all: try (intros Hne; destruct (stdout res); [congruence | reflexivity]).
  all: try (intros ->; reflexivity).
  all: unfold join_sp; rewrite !append_assoc; reflexivity.
Qed.

Lemma commit_nonzero_report_witness :
  In (commit_cmd (the_message source_config nothing_to_commit_env))
     (spawned (final source_config nothing_to_commit_env ∅))
  /\ printed Stdout (final source_config nothing_to_commit_env ∅)
     = ["Random roll: 0.100 (need < 0.7)" +:+ nl;
        "git commit returned non-zero. Output:" +:+ nl;
        "fatal: it went wrong" +:+ nl].
Proof.
  assert (Hin : In (commit_cmd (the_message source_config nothing_to_commit_env))
                   (spawned (final source_config nothing_to_commit_env ∅))).
  { vm_compute. do 2 right. left. reflexivity. }
  assert (Hrc : returncode (mk_completed 1 "" "fatal: it went wrong") <> 0)
    by (simpl; lia).
  split; [exact Hin|].
  rewrite (proj1 (commit_nonzero_report source_config nothing_to_commit_env ∅
                    (the_message source_config nothing_to_commit_env)
                    (mk_completed 1 "" "fatal: it went wrong") Hin eq_refl Hrc)).
  vm_compute. reflexivity.
Defined.

(** X7. When a git invocation raises an exception (the executable is
    missing, say), that command is the last one of the run, the one line on
    standard error is [ERROR during git operations:] followed by the text
    of the exception, the exit status is 7, and the line written before
    stays in the file. *)
Theorem git_exception_diagnostic cfg env fs argv e :
  In argv (spawned (final cfg env fs)) ->
  git cfg env argv = Throws e ->
  exit_code cfg env fs = 7
  /\ last (spawned (final cfg env fs)) = Some argv
  /\ printed Stderr (final cfg env fs)
     = ["ERROR during git operations: " +:+ exn_str e +:+ nl]
  /\ files (final cfg env fs)
     = <[target cfg := default "" (fs !! target cfg) +:+ the_line cfg env]> fs.
Proof.
  intros Hin Hgit. run_paths.
  all: try (exfalso; in_cases Hin; fail).
  all: in_cases Hin; subst argv; try (exfalso; congruence).
  all: rewrite Hgit in *.
  all: repeat match goal with H : Throws _ = Throws _ |- _ => injection H as <- end.
  all: repeat split; reflexivity.
Qed.

Lemma git_exception_diagnostic_witness :
  In status_cmd (spawned (final source_config status_raises_env ∅))
  /\ exit_code source_config status_raises_env ∅ = 7
  /\ spawned (final source_config status_raises_env ∅) = [status_cmd].
Proof.
  assert (Hin : In status_cmd (spawned (final source_config status_raises_env ∅))).
  { vm_compute. left. reflexivity. }
  split; [exact Hin|]. split.
  - exact (proj1 (git_exception_diagnostic source_config status_raises_env ∅
                    status_cmd _ Hin eq_refl)).
  - vm_compute. reflexivity.
Defined.

(** X8. When the write fails after both gates, the run stops there: exit
    status 3, the one line on standard error is [ERROR writing file:]
    followed by the text of the exception, and no git command is run.
    Nothing is undone: if [open] failed the file is untouched and not
    opened; if the failure came later, the bytes that had reached the file
    stay in it. *)
Theorem write_failure_stops_the_run cfg env fs f :
  passes_gates cfg env ->
  NOTES cfg <> [] ->
  file_fault env (target cfg) (the_line cfg env) = Some f ->
  exit_code cfg env fs = 3
  /\ spawned (final cfg env fs) = []
  /\ printed Stderr (final cfg env fs)
     = ["ERROR writing file: " +:+ exn_str (fault_exn f) +:+ nl]
  /\ match f with
     | OpenFails _ =>
         files (final cfg env fs) = fs /\ opened (final cfg env fs) = []
     | WriteFails n _ =>
         files (final cfg env fs)
         = <[target cfg := default "" (fs !! target cfg)
                           +:+ take_bytes n (the_line cfg env)]> fs
         /\ opened (final cfg env fs) = [(target cfg, "a")]
     end.
Proof.
  intros Hg Hn Hf. destruct f as [e|n e]; run_paths.
  all: try impossible.
  all: simplify_eq.
  all: repeat split; reflexivity.
Qed.

Lemma write_failure_stops_the_run_witness :
  passes_gates source_config short_write_env
  /\ exit_code source_config short_write_env seeded = 3
  /\ spawned (final source_config short_write_env seeded) = []
  /\ files (final source_config short_write_env seeded) !! target source_config
     = Some (earlier +:+ "2026-11-04").
Proof.
  assert (Hg : passes_gates source_config short_write_env).
  { split; [reflexivity|]. split; [|reflexivity].
    replace (gate_weekday short_write_env) with 2 by reflexivity. lia. }
  assert (Hn : NOTES source_config <> []) by discriminate.
  split; [exact Hg|].
  destruct (write_failure_stops_the_run source_config short_write_env seeded
              (WriteFails 10 (Exception "[Errno 28] No space left on device"))
              Hg Hn eq_refl) as (Hc & Hs & _ & Hf & _).
  split; [exact Hc|]. split; [exact Hs|].
  rewrite Hf, lookup_insert_eq. vm_compute. reflexivity.
Defined.

(** X9. With PROBABILITY zero or negative no run ever acts: whatever the
    day and the random source, the file system is unchanged, no file is
    opened, no command is run, and the exit status is 0 or 2. *)
Theorem zero_probability_never_acts cfg env fs :
  (PROBABILITY cfg <= 0)%Q ->
  files (final cfg env fs) = fs
  /\ opened (final cfg env fs) = []
  /\ spawned (final cfg env fs) = []
  /\ (exit_code cfg env fs = 0 \/ exit_code cfg env fs = 2).
Proof.
  intros Hp.
  assert (Hroll : Qle_bool (PROBABILITY cfg) (roll env) = true).
  { apply Qle_bool_iff. eapply Qle_trans; [exact Hp|].
    apply to_unit_interval_range. }
  run_paths.
  all: try congruence.
  all: repeat split; auto.
Qed.

Lemma zero_probability_never_acts_witness :
  (PROBABILITY never_config <= 0)%Q
  /\ files (final never_config happy_env seeded) = seeded
  /\ spawned (final never_config happy_env seeded) = [].
Proof.
  assert (Hp : (PROBABILITY never_config <= 0)%Q) by (vm_compute; discriminate).
  split; [exact Hp|].
  destruct (zero_probability_never_acts never_config happy_env seeded Hp)
    as (Hf & _ & Hs & _).
  split; assumption.
Defined.

(** X10. With PROBABILITY one or more the probabilistic gate never stops a
    run: on a weekday, with REPO_DIR a directory and a non-empty list of
    notes, the run passes both gates, draws its note, and, when the write
    succeeds, appends its line. *)
Theorem full_probability_always_acts cfg env fs :
  (1 <= PROBABILITY cfg)%Q ->
  isdir env (REPO_DIR cfg) = true ->
  gate_weekday env < 5 ->
  NOTES cfg <> [] ->
  passes_gates cfg env
  /\ draws (final cfg env fs) = 2%nat
  /\ (write_succeeds cfg env ->
        files (final cfg env fs)
        = <[target cfg := default "" (fs !! target cfg) +:+ the_line cfg env]> fs).
Proof.
  intros Hp Hd Hw Hn.
  assert (Hroll : Qle_bool (PROBABILITY cfg) (roll env) = false).
  { destruct (Qle_bool (PROBABILITY cfg) (roll env)) eqn:E; [|reflexivity].
    apply Qle_bool_iff in E. exfalso.
    pose proof (proj2 (to_unit_interval_range (entropy env 0))) as Hlt.
    apply (Qlt_irrefl 1). eapply Qle_lt_trans; [exact Hp|].
    eapply Qle_lt_trans; [exact E | exact Hlt]. }
  pose proof (weekday_range (clock env 0)) as Hrange.
  run_paths.
  all: try (exfalso; finish; fail).
  all: repeat split; try reflexivity; try lia; try congruence.
Qed.

Lemma full_probability_always_acts_witness :
  (1 <= PROBABILITY always_config)%Q
  /\ Qle_bool (PROBABILITY source_config) (roll unlucky_env) = true
  /\ passes_gates always_config unlucky_env
  /\ draws (final always_config unlucky_env seeded) = 2%nat.
Proof.
  assert (Hp : (1 <= PROBABILITY always_config)%Q) by (vm_compute; discriminate).
  assert (Hw : gate_weekday unlucky_env < 5)
    by (replace (gate_weekday unlucky_env) with 2 by reflexivity; lia).
  assert (Hn : NOTES always_config <> []) by discriminate.
  split; [exact Hp|]. split; [vm_compute; reflexivity|].
  destruct (full_probability_always_acts always_config unlucky_env seeded
              Hp eq_refl Hw Hn) as (Hg & Hd & _).
  split; assumption.
Defined.

(** X11. DRY_RUN has no influence on the files: the dry run and the real
    run of the same configuration in the same surroundings leave the same
    file system.  The commands of the dry run are an initial part of those
    of the real run, and a dry run never exits with status 6. *)
Theorem dry_run_changes_no_file cfg env fs :
  files (final (with_dry_run true cfg) env fs)
  = files (final (with_dry_run false cfg) env fs)
  /\ (exists rest,
        spawned (final (with_dry_run false cfg) env fs)
        = (spawned (final (with_dry_run true cfg) env fs) ++ rest)%list)
  /\ exit_code (with_dry_run true cfg) env fs <> 6.
Proof.
  unfold with_dry_run. run_paths.
  all: split; [reflexivity|]; split; [eexists; reflexivity | discriminate].
Qed.

(** What one run does to the file system. *)
Lemma run_files cfg env fs :
  files (final cfg env fs) = fs
  \/ exists added,
       files (final cfg env fs)
       = <[target cfg := default "" (fs !! target cfg) +:+ added]> fs.
Proof.
  run_paths; first [left; reflexivity | right; eexists; reflexivity].
Qed.

Lemma run_files_acting cfg env fs :
  NOTES cfg <> [] -> passes_gates cfg env -> write_succeeds cfg env ->
  files (final cfg env fs)
  = <[target cfg := default "" (fs !! target cfg) +:+ the_line cfg env]> fs.
Proof.
  intros Hn Hg Hw. run_paths; try impossible; reflexivity.
Qed.

Lemma run_sequence_acting cfg envs fs :
  NOTES cfg <> [] ->
  Forall (fun env => passes_gates cfg env /\ write_succeeds cfg env) envs ->
  default "" (run_sequence cfg envs fs !! target cfg)
  = default "" (fs !! target cfg) +:+ concat_all (map (the_line cfg) envs).
Proof.
  intros Hn. revert fs. induction envs as [|env envs IH]; intros fs Hall; simpl.
  - rewrite append_empty. reflexivity.
  - inversion Hall as [|? ? [Hg Hw] Hrest]; subst.
    rewrite (IH _ Hrest), (run_files_acting cfg env fs Hn Hg Hw).
    rewrite lookup_insert_eq. simpl. rewrite append_assoc. reflexivity.
Qed.

(** X12. Over any schedule of runs, each starting on the files the
    previous one left, the log only grows: what the target held at the
    start is a prefix of what it holds at the end, and no other file
    changes.  When every run of the schedule passes the gates and writes
    successfully, the target ends with the lines of the runs, in the order
    of the runs, after what it held. *)
Theorem log_grows_across_runs cfg envs fs :
  (forall old, fs !! target cfg = Some old ->
     exists added, run_sequence cfg envs fs !! target cfg = Some (old +:+ added))
  /\ (forall p, p <> target cfg -> run_sequence cfg envs fs !! p = fs !! p)
  /\ (NOTES cfg <> [] ->
      Forall (fun env => passes_gates cfg env /\ write_succeeds cfg env) envs ->
      default "" (run_sequence cfg envs fs !! target cfg)
      = default "" (fs !! target cfg) +:+ concat_all (map (the_line cfg) envs)).
Proof.
  split; [|split; [|apply run_sequence_acting]].
  - revert fs. induction envs as [|env envs IH]; intros fs old Hold; simpl.
    + exists "". rewrite append_empty. exact Hold.
    + destruct (run_files cfg env fs) as [E|[added E]]; rewrite E.
      * apply IH. exact Hold.
      * destruct (IH (<[target cfg := default "" (fs !! target cfg) +:+ added]> fs)
                     (old +:+ added)) as [more Hmore].
        { rewrite lookup_insert_eq, Hold. reflexivity. }
        exists (added +:+ more). rewrite <- append_assoc. exact Hmore.
  - revert fs. induction envs as [|env envs IH]; intros fs p Hp; simpl.
    + reflexivity.
    + rewrite (IH _ p Hp).
      destruct (run_files cfg env fs) as [E|[added E]]; rewrite E; [reflexivity|].
      apply lookup_insert_ne. congruence.
Qed.

(** X13. With notes that hold no line feed, a schedule of runs that all
    act adds exactly one line per run to the log: the number of line feeds
    in the target grows by the number of runs. *)
Theorem one_line_per_acting_run cfg envs fs :
  NOTES cfg <> [] ->
  Forall (fun note => count_lf note = O) (NOTES cfg) ->
  Forall (acts cfg) envs ->
  count_lf (default "" (run_sequence cfg envs fs !! target cfg))
  = (count_lf (default "" (fs !! target cfg)) + length envs)%nat.
Proof.
  intros Hn Hnotes Hacts.
  rewrite run_sequence_acting; [| exact Hn |].
  - rewrite count_lf_app. f_equal.
    induction Hacts as [|env envs (Hg & Hw & Hv) _ IH]; [reflexivity|].
    simpl. rewrite count_lf_app, IH.
    assert (Hone : count_lf (the_line cfg env) = 1%nat).
    { apply log_line_one_line; [apply isoformat_is_iso; exact Hv|].
      rewrite Forall_forall in Hnotes. apply Hnotes.
      apply list_elem_of_In, chosen_note_in. exact Hn. }
    rewrite Hone. reflexivity.
  - eapply Forall_impl; [exact Hacts|]. intros env (Hg & Hw & _). split; assumption.
Qed.

Lemma one_line_per_acting_run_witness :
  acts source_config happy_env
  /\ count_lf (default "" (run_sequence source_config [happy_env; happy_env] seeded
                           !! target source_config)) = 3%nat.
Proof.
  assert (Ha : acts source_config happy_env).
  { split; [|split; reflexivity].
    split; [reflexivity|]. split; [|reflexivity].
    replace (gate_weekday happy_env) with 2 by reflexivity. lia. }
  assert (Hn : NOTES source_config <> []) by discriminate.
  assert (Hl : Forall (fun note => count_lf note = O) (NOTES source_config))
    by (repeat constructor).
  assert (Hall : Forall (acts source_config) [happy_env; happy_env])
    by (constructor; [exact Ha | constructor; [exact Ha | constructor]]).
  split; [exact Ha|].
  rewrite (one_line_per_acting_run source_config [happy_env; happy_env] seeded
             Hn Hl Hall).
  reflexivity.
Defined.

Lemma matches_length p s : matches p s = true -> String.length s = length p.
Proof.
  revert s. induction p as [|k p IH]; intros [|c s]; simpl; try discriminate; auto.
  intros H. apply andb_true_iff in H as [_ H]. rewrite (IH s H). reflexivity.
Qed.

Lemma append_inj_length a a' b b' :
  String.length a = String.length a' -> a +:+ b = a' +:+ b' -> a = a' /\ b = b'.
Proof.
  revert a'. induction a as [|c a IH]; intros [|c' a'] Hl H; simpl in Hl; try discriminate.
  - split; [reflexivity | exact H].
  - rewrite !append_cons in H. injection H as -> H.
    destruct (IH a' ltac:(lia) H) as [-> ->]. split; reflexivity.
Qed.

Lemma append_inj_suffix a a' c : a +:+ c = a' +:+ c -> a = a'.
Proof.
  intros H. apply (append_inj_length a a' c c); [|exact H].
  apply (f_equal String.length) in H. rewrite !length_append in H. lia.
Qed.

(** X14. A written line determines its record, and so does a commit
    message: two time stamps of the form YYYY-MM-DDTHH:MM:SS and two notes
    that give the same line, or the same message, are equal.  The commit
    message is the line without its line feed, after the fixed label. *)
Theorem log_line_determines_record ts1 note1 ts2 note2 :
  is_iso_seconds ts1 = true ->
  is_iso_seconds ts2 = true ->
  (log_line ts1 note1 = log_line ts2 note2 -> ts1 = ts2 /\ note1 = note2)
  /\ (commit_message ts1 note1 = commit_message ts2 note2 -> ts1 = ts2 /\ note1 = note2)
  /\ "Automated activity: " +:+ log_line ts1 note1 = commit_message ts1 note1 +:+ nl.
Proof.
  intros H1 H2.
  assert (Hl : String.length ts1 = String.length ts2).
  { rewrite (matches_length _ _ H1), (matches_length _ _ H2). reflexivity. }
  split; [|split].
  - unfold log_line. intros H.
    destruct (append_inj_length _ _ _ _ Hl H) as [-> H'].
    split; [reflexivity|].
    unfold em_dash in H'. rewrite !append_cons in H'.
    injection H' as H'. change (note1 +:+ nl = note2 +:+ nl) in H'.
    apply append_inj_suffix in H'. exact H'.
  - unfold commit_message. intros H.
    rewrite !append_cons in H. injection H as H.
    destruct (append_inj_length _ _ _ _ Hl H) as [-> H'].
    split; [reflexivity|].
    unfold em_dash in H'. rewrite !append_cons in H'.
    injection H' as H'. exact H'.
  - unfold log_line, commit_message. rewrite !append_assoc. reflexivity.
Qed.

Lemma log_line_determines_record_witness :
  is_iso_seconds "2026-11-04T12:32:07" = true
  /\ is_iso_seconds "2026-11-05T08:00:00" = true
  /\ log_line "2026-11-04T12:32:07" "daily log entry"
     <> log_line "2026-11-05T08:00:00" "daily log entry".
Proof.
  split; [reflexivity|]. split; [reflexivity|].
  intros H.
  destruct (proj1 (log_line_determines_record
                     "2026-11-04T12:32:07" "daily log entry"
                     "2026-11-05T08:00:00" "daily log entry" eq_refl eq_refl) H)
    as [Hts _].
  discriminate Hts.
Defined.

(** X15. A FILENAME that starts with [/] is used as it is:
    [os.path.join] drops REPO_DIR, so the file the run opens and changes is
    FILENAME itself, wherever it lies, while [git add] is still given
    FILENAME and run in REPO_DIR. *)
Theorem absolute_filename_is_used_as_is cfg env fs :
  startswith_sep (FILENAME cfg) = true ->
  target cfg = FILENAME cfg
  /\ (forall p m, In (p, m) (opened (final cfg env fs)) -> p = FILENAME cfg)
  /\ (forall p, p <> FILENAME cfg -> files (final cfg env fs) !! p = fs !! p)
  /\ (forall argv, In argv (spawned (final cfg env fs)) -> subcommand argv = "add" ->
        argv = ["git"; "add"; FILENAME cfg]).
Proof.
  intros Habs.
  assert (Ht : path_join (REPO_DIR cfg) (FILENAME cfg) = FILENAME cfg).
  { unfold path_join. rewrite Habs. reflexivity. }
  split; [exact Ht|].
  run_paths.
  all: rewrite ?Ht in *.
  all: split_all.
  all: try (intros p m Hin; in_cases Hin; injection Hin as <- <-; reflexivity).
  all: try (intros p Hp; first [reflexivity | apply lookup_insert_ne; congruence]).
  all: intros argv Hargv Hsub; in_cases Hargv; subst argv;
       first [discriminate Hsub | reflexivity].
Qed.

Lemma absolute_filename_is_used_as_is_witness :
  startswith_sep (FILENAME absolute_config) = true
  /\ target absolute_config = "/var/log/activity_log.txt"
  /\ opened (final absolute_config happy_env ∅) = [("/var/log/activity_log.txt", "a")].
Proof.
  split; [reflexivity|]. split.
  - exact (proj1 (absolute_filename_is_used_as_is absolute_config happy_env ∅ eq_refl)).
  - vm_compute. reflexivity.
Defined.




